(** * mark2 — the Manager's built-in event handlers (src/mk2/manager.py)

    A shallow embedding of [Manager] and of the handlers it registers
    with the event dispatcher.  The handlers are written in a small
    monad whose state is the manager object together with the log of
    the calls made to the outside world ([self.events.dispatch],
    [log.msg], [properties.load], the SIGINT of [shutdown]). *)

From Stdlib Require Import Ascii String List Bool Arith Lia.
From stdpp Require Import base option list gmap sets strings.
Import ListNotations.

Local Open Scope string_scope.
Local Open Scope list_scope.

(** ** Text

    Event fields that carry text are modelled as [string]; on those
    values Python 2's [str(x)] and [unicode(x)] conversions are the
    identity. *)

Definition str (s : string) : string := s.
Definition unicode (s : string) : string := s.

Definition LF : ascii := "010"%char.

(** [s.split("\n")]: the segments between line feeds; never empty. *)
Fixpoint split_lines (s : string) : list string :=
  match s with
  | EmptyString => [EmptyString]
  | String c rest =>
      if Ascii.eqb c LF then EmptyString :: split_lines rest
      else match split_lines rest with
           | [] => [String c EmptyString]
           | seg :: segs => String c seg :: segs
           end
  end.

(** [s.startswith(p)] *)
Definition startswith (s p : string) : bool := String.prefix p s.

(** ["%s" % x] for a value that is a string or [None]. *)
Definition percent_s (x : option string) : string :=
  match x with
  | Some s => s
  | None => "None"
  end.

(** ** Events *)

(** Modelled from the spec: the keyword arguments of [events.Console]
    (events.py is not among the sources), [Console{line, source, kind?,
    user?, time}] together with the further keywords manager.py passes.
    A keyword the constructor call does not pass is [None]. *)
Record ConsoleArgs := MkConsole {
  c_line   : string;
  c_source : option string;
  c_kind   : option string;
  c_user   : option string;
  c_prompt : option string;
  c_time   : option string;
  c_level  : option string;
  c_data   : option string
}.

(** The result of [m.groupdict()]: every named group of the pattern, in
    pattern order, with [None] for a group that took no part in the match. *)
Definition Groupdict := list (string * option string).

(** Modelled from the spec: the event variants of events.py that
    manager.py constructs or receives, with the fields of the spec's data
    model; [PlayerDeath] carries [cause], [format] and the named groups.
    [time] and [level] are opaque text here. *)
Inductive Event :=
| ServerOutput (line time level data : string)
| Console (k : ConsoleArgs)
| ServerInput (line : string) (parse_colors : option bool)
| FatalError (reason : option string)
| ServerStarted
| ServerStopped
| ServerStart
| UserAttach (user : string)
| UserDetach (user : string)
| UserInput (line user : string)
| PlayerJoin (username : string)
| PlayerQuit (username : string)
| PlayerChat (username message : string)
| PlayerDeath (cause : option string) (format : string) (groups : Groupdict)
| StatPlayers (players : list string)
| Hook (line : string).

(** ** The manager object *)

(** Modelled from the spec: the snapshot of server.properties that
    [properties.load] returns (properties.py is not among the sources),
    a mapping of keys to values like the [self.config[...]] manager.py
    reads. *)
Definition Properties := list (string * string).

(** Python truth value of what [properties.load] returned ([None] or a
    dict, which is false when empty). *)
Definition truthy (p : option Properties) : bool :=
  match p with
  | Some (_ :: _) => true
  | _ => false
  end.

Record Manager := MkManager {
  players    : gset string;
  started    : bool;
  properties : option Properties
}.

(** [Manager.__init__]: [started = False] is the class attribute,
    [self.players = set()]; [self.properties] is not yet bound. *)
Definition init : Manager :=
  {| players := ∅; started := false; properties := None |}.

(** Attribute assignments on [self]. *)
Definition set_players (ps : gset string) (m : Manager) : Manager :=
  {| players := ps; started := started m; properties := properties m |}.
Definition set_started (b : bool) (m : Manager) : Manager :=
  {| players := players m; started := b; properties := properties m |}.
Definition set_properties (p : option Properties) (m : Manager) : Manager :=
  {| players := players m; started := started m; properties := p |}.

(** ** The outside world *)

Inductive Action :=
| Dispatched (e : Event)         (* self.events.dispatch(e) *)
| LoadedProperties               (* properties.load(..., 'server.properties') *)
| Logged (line : string)         (* log.msg(line, system="mark2") *)
| Interrupted.                   (* reactor.callInThread(... os.kill(os.getpid(), SIGINT)) *)

(** What the collaborators answer, as a function of everything that has
    happened so far: the value [dispatch] hands back to its caller (only
    a [Hook] dispatch is ever inspected), the dict [properties.load]
    returns, and the rendering of a console line by events.py. *)
Record Env := MkEnv {
  dispatch_result : list Action -> Event -> bool;
  properties_load : list Action -> option Properties;
  console_value   : ConsoleArgs -> string      (* Console.value() *)
}.

Record World := MkWorld {
  self  : Manager;
  trace : list Action
}.

Inductive PyError :=
| TypeError (msg : string).

Inductive Outcome (A : Type) :=
| Returned (a : A) (w : World)
| Raised (err : PyError) (w : World).
Arguments Returned {A} a w.
Arguments Raised {A} err w.

Definition M (A : Type) : Type := Env -> World -> Outcome A.

#[export] Instance M_ret : MRet M := fun A a _ w => Returned a w.
#[export] Instance M_bind : MBind M := fun A B f m env w =>
  match m env w with
  | Returned a w' => f a env w'
  | Raised err w' => Raised err w'
  end.

Definition raise {A} (err : PyError) : M A := fun _ w => Raised err w.

Definition get_self : M Manager := fun _ w => Returned (self w) w.

Definition set_self (m : Manager) : M unit := fun _ w =>
  Returned tt {| self := m; trace := trace w |}.

Definition emit (a : Action) : M unit := fun _ w =>
  Returned tt {| self := self w; trace := trace w ++ [a] |}.

(** [self.events.dispatch(e)]: the call is recorded and the dispatcher's
    answer is taken from the environment.  What the dispatcher then runs
    for [e] is not part of the caller: of the events the manager's own
    handlers dispatch, only [Console] has a handler in the manager
    ([handle_console]), and it does not touch [self]. *)
Definition dispatch (e : Event) : M bool := fun env w =>
  Returned (dispatch_result env (trace w) e)
           {| self := self w; trace := trace w ++ [Dispatched e] |}.

(** [properties.load(properties.Mark2Properties, <defaults>, 'server.properties')] *)
Definition load_server_properties : M (option Properties) := fun env w =>
  Returned (properties_load env (trace w))
           {| self := self w; trace := trace w ++ [LoadedProperties] |}.

(** [for x in xs: body(x)] *)
Fixpoint for_each {A} (xs : list A) (body : A -> M unit) : M unit :=
  match xs with
  | [] => mret tt
  | x :: rest => body x;; for_each rest body
  end.

(** What a computation did: the manager it left and the actions it added. *)
Definition final {A} (o : Outcome A) : World :=
  match o with
  | Returned _ w => w
  | Raised _ w => w
  end.

Definition returns {A} (o : Outcome A) : bool :=
  match o with
  | Returned _ _ => true
  | Raised _ _ => false
  end.

(** ** Regular expressions

    Python's [re.match(pattern, string)] for the fragment of the pattern
    language the death table is written in: literals and escaped
    punctuation, [.], [^], [$], the classes [\w \d \s] and bracketed
    ranges, greedy [* + ? {m,n}], alternation, and plain, non-capturing
    and named groups.  [compile] answers [None] outside the fragment. *)

Module Re.

Inductive regex :=
| Eps
| Lit (c : ascii)
| AnyChar
| Class (negated : bool) (ranges : list (ascii * ascii))
| Bol
| Eol
| Cat (r1 r2 : regex)
| Alt (r1 r2 : regex)
| Rep (lo : nat) (hi : option nat) (r : regex)
| Group (name : option string) (r : regex).

Definition word_ranges : list (ascii * ascii) :=
  [("a", "z"); ("A", "Z"); ("0", "9"); ("_", "_")]%char.
Definition digit_ranges : list (ascii * ascii) := [("0", "9")]%char.
Definition space_ranges : list (ascii * ascii) :=
  [(" ", " "); ("009", "013")]%char.

Definition in_ranges (c : ascii) (rs : list (ascii * ascii)) : bool :=
  existsb (fun '(lo, hi) => Nat.leb (nat_of_ascii lo) (nat_of_ascii c)
                            && Nat.leb (nat_of_ascii c) (nat_of_ascii hi)) rs.

Definition is_alnum (c : ascii) : bool :=
  in_ranges c [("a", "z"); ("A", "Z"); ("0", "9")]%char.

(** *** Parsing a pattern *)

(** [strip p s]: what follows the prefix [p] of [s]. *)
Fixpoint strip (p s : string) : option string :=
  match p, s with
  | EmptyString, _ => Some s
  | String a p', String b s' => if Ascii.eqb a b then strip p' s' else None
  | String _ _, EmptyString => None
  end.

Fixpoint digits (s : string) (acc : option nat) : option nat * string :=
  match s with
  | String c s' =>
      if in_ranges c digit_ranges
      then digits s' (Some (10 * default 0 acc + (nat_of_ascii c - 48)))
      else (acc, s)
  | EmptyString => (acc, s)
  end.

(** The inside of [{m}], [{m,}], [{,n}] or [{m,n}], after the brace. *)
Definition counted (s : string) : option (nat * option nat * string) :=
  let '(lo, s1) := digits s None in
  match strip "}" s1, lo with
  | Some s2, Some n => Some (n, Some n, s2)
  | Some _, None => None
  | None, _ =>
      match strip "," s1 with
      | Some s2 =>
          let '(hi, s3) := digits s2 None in
          match strip "}" s3 with
          | Some s4 => Some (default 0 lo, hi, s4)
          | None => None
          end
      | None => None
      end
  end.

Definition quantified (a : regex) (s : string) : regex * string :=
  match s with
  | String c s' =>
      if Ascii.eqb c "*" then (Rep 0 None a, s')
      else if Ascii.eqb c "+" then (Rep 1 None a, s')
      else if Ascii.eqb c "?" then (Rep 0 (Some 1) a, s')
      else if Ascii.eqb c "{" then
        match counted s' with
        | Some (lo, hi, s'') => (Rep lo hi a, s'')
        | None => (a, s)
        end
      else (a, s)
  | EmptyString => (a, s)
  end.

(** A backslash escape; [None] for the escapes outside the fragment. *)
Definition escape (c : ascii) : option regex :=
  if Ascii.eqb c "w" then Some (Class false word_ranges)
  else if Ascii.eqb c "W" then Some (Class true word_ranges)
  else if Ascii.eqb c "d" then Some (Class false digit_ranges)
  else if Ascii.eqb c "D" then Some (Class true digit_ranges)
  else if Ascii.eqb c "s" then Some (Class false space_ranges)
  else if Ascii.eqb c "S" then Some (Class true space_ranges)
  else if Ascii.eqb c "n" then Some (Lit "010")
  else if Ascii.eqb c "t" then Some (Lit "009")
  else if Ascii.eqb c "r" then Some (Lit "013")
  else if is_alnum c then None
  else Some (Lit c).

(** The items of a bracketed class up to the closing bracket. *)
Fixpoint class_items (n : nat) (s : string) : option (list (ascii * ascii) * string) :=
  match n with
  | O => None
  | S n' =>
      match s with
      | EmptyString => None
      | String c s1 =>
          if Ascii.eqb c "]" then Some ([], s1)
          else if Ascii.eqb c "\" then
            match s1 with
            | String e s2 =>
                match escape e with
                | Some (Class false rs) =>
                    match class_items n' s2 with
                    | Some (more, s3) => Some (rs ++ more, s3)
                    | None => None
                    end
                | Some (Lit l) =>
                    match class_items n' s2 with
                    | Some (more, s3) => Some ((l, l) :: more, s3)
                    | None => None
                    end
                | _ => None
                end
            | EmptyString => None
            end
          else
            match s1 with
            | String d (String hi s2) =>
                if Ascii.eqb d "-" && negb (Ascii.eqb hi "]") && negb (Ascii.eqb hi "\")
                then match class_items n' s2 with
                     | Some (more, s3) => Some ((c, hi) :: more, s3)
                     | None => None
                     end
                else match class_items n' s1 with
                     | Some (more, s3) => Some ((c, c) :: more, s3)
                     | None => None
                     end
            | _ =>
                match class_items n' s1 with
                | Some (more, s3) => Some ((c, c) :: more, s3)
                | None => None
                end
            end
      end
  end.

Fixpoint group_name (s : string) : string * string :=
  match s with
  | String c s' =>
      if is_alnum c || Ascii.eqb c "_"
      then let '(name, rest) := group_name s' in (String c name, rest)
      else (EmptyString, s)
  | EmptyString => (EmptyString, s)
  end.

Definition closing (p : option (regex * string)) (wrap : regex -> regex)
  : option (regex * string) :=
  match p with
  | Some (r, s) =>
      match strip ")" s with
      | Some s' => Some (wrap r, s')
      | None => None
      end
  | None => None
  end.

Fixpoint alternation (n : nat) (s : string) : option (regex * string) :=
  match n with
  | O => None
  | S n' =>
      match sequence n' s with
      | Some (r1, s1) =>
          match strip "|" s1 with
          | Some s2 =>
              match alternation n' s2 with
              | Some (r2, s3) => Some (Alt r1 r2, s3)
              | None => None
              end
          | None => Some (r1, s1)
          end
      | None => None
      end
  end
with sequence (n : nat) (s : string) : option (regex * string) :=
  match n with
  | O => None
  | S n' =>
      match s with
      | EmptyString => Some (Eps, s)
      | String c _ =>
          if Ascii.eqb c "|" || Ascii.eqb c ")" then Some (Eps, s)
          else match atom n' s with
               | Some (a, s1) =>
                   let '(q, s2) := quantified a s1 in
                   match sequence n' s2 with
                   | Some (Eps, s3) => Some (q, s3)
                   | Some (r, s3) => Some (Cat q r, s3)
                   | None => None
                   end
               | None => None
               end
      end
  end
with atom (n : nat) (s : string) : option (regex * string) :=
  match n with
  | O => None
  | S n' =>
      match s with
      | EmptyString => None
      | String c s1 =>
          if Ascii.eqb c "(" then
            match strip "?" s1 with
            | Some s2 =>
                match strip "P<" s2, strip ":" s2 with
                | Some s3, _ =>
                    let '(name, s4) := group_name s3 in
                    match name, strip ">" s4 with
                    | String _ _, Some s5 =>
                        closing (alternation n' s5) (Group (Some name))
                    | _, _ => None
                    end
                | None, Some s3 => closing (alternation n' s3) (fun r => r)
                | None, None => None
                end
            | None => closing (alternation n' s1) (Group None)
            end
          else if Ascii.eqb c "[" then
            match strip "^" s1 with
            | Some s2 =>
                match class_items (String.length s2) s2 with
                | Some (rs, s3) => Some (Class true rs, s3)
                | None => None
                end
            | None =>
                match class_items (String.length s1) s1 with
                | Some (rs, s3) => Some (Class false rs, s3)
                | None => None
                end
            end
          else if Ascii.eqb c "\" then
            match s1 with
            | String e s2 =>
                match escape e with
                | Some r => Some (r, s2)
                | None => None
                end
            | EmptyString => None
            end
          else if Ascii.eqb c "." then Some (AnyChar, s1)
          else if Ascii.eqb c "^" then Some (Bol, s1)
          else if Ascii.eqb c "$" then Some (Eol, s1)
          else if Ascii.eqb c "*" || Ascii.eqb c "+" || Ascii.eqb c "?"
          then None
          else Some (Lit c, s1)
      end
  end.

(** [re.compile(pattern)] *)
Definition compile (pattern : string) : option regex :=
  match alternation (3 * String.length pattern + 3) pattern with
  | Some (r, EmptyString) => Some r
  | _ => None
  end.

(** *** Matching *)

(** Text captured by the named groups, the latest capture first. *)
Definition Captures := list (string * string).

Fixpoint lookup_capture (name : string) (caps : Captures) : option string :=
  match caps with
  | [] => None
  | (n, v) :: rest => if String.eqb n name then Some v else lookup_capture name rest
  end.

(** Backtracking matcher in continuation-passing style: [k] is what must
    still match after [r]; [total] is the length of the whole subject. *)
Fixpoint run (total : nat) (r : regex) (s : string) (caps : Captures)
         (k : string -> Captures -> option Captures) {struct r} : option Captures :=
  match r with
  | Eps => k s caps
  | Lit c =>
      match s with
      | String d s' => if Ascii.eqb c d then k s' caps else None
      | EmptyString => None
      end
  | AnyChar =>
      match s with
      | String d s' => if Ascii.eqb d "010" then None else k s' caps
      | EmptyString => None
      end
  | Class negated rs =>
      match s with
      | String d s' => if xorb negated (in_ranges d rs) then k s' caps else None
      | EmptyString => None
      end
  | Bol => if Nat.eqb (String.length s) total then k s caps else None
  | Eol =>
      match s with
      | EmptyString => k s caps
      | String d EmptyString => if Ascii.eqb d "010" then k s caps else None
      | _ => None
      end
  | Cat r1 r2 => run total r1 s caps (fun s' caps' => run total r2 s' caps' k)
  | Alt r1 r2 =>
      match run total r1 s caps k with
      | Some res => Some res
      | None => run total r2 s caps k
      end
  | Group name r' =>
      run total r' s caps
        (fun s' caps' =>
           match name with
           | Some n =>
               k s' ((n, substring 0 (String.length s - String.length s') s) :: caps')
           | None => k s' caps'
           end)
  | Rep lo hi r' =>
      (fix loop (fuel i : nat) (s : string) (caps : Captures) {struct fuel}
         : option Captures :=
         match fuel with
         | O => None
         | S fuel' =>
             let again :=
               if match hi with Some h => Nat.ltb i h | None => true end
               then run total r' s caps
                      (fun s' caps' =>
                         if Nat.ltb i lo || Nat.ltb (String.length s') (String.length s)
                         then loop fuel' (S i) s' caps'
                         else None)
               else None in
             match again with
             | Some res => Some res
             | None => if Nat.leb lo i then k s caps else None
             end
         end) (lo + String.length s + 1) 0 s caps
  end.

(** The named groups of a pattern, in pattern order. *)
Fixpoint group_names (r : regex) : list string :=
  match r with
  | Cat r1 r2 | Alt r1 r2 => group_names r1 ++ group_names r2
  | Rep _ _ r' => group_names r'
  | Group (Some n) r' => n :: group_names r'
  | Group None r' => group_names r'
  | _ => []
  end.

(** [m = re.match(pattern, data)] followed by [m.groupdict()]; [None]
    when there is no match (the match is anchored at the start of
    [data] only). *)
Definition match_groupdict (pattern data : string) : option Groupdict :=
  match compile pattern with
  | Some r =>
      match run (String.length data) r data [] (fun _ caps => Some caps) with
      | Some caps =>
          Some (map (fun n => (n, lookup_capture n caps)) (group_names r))
      | None => None
      end
  | None => None
  end.

End Re.

(** ** Manager: helpers *)

(** Keyword arguments of a [self.console(line, **k)] call. *)
Definition kw (source kind user prompt : option string) : ConsoleArgs :=
  {| c_line := ""; c_source := source; c_kind := kind; c_user := user;
     c_prompt := prompt; c_time := None; c_level := None; c_data := None |}.

(** [k['line'] = l] *)
Definition set_line (l : string) (k : ConsoleArgs) : ConsoleArgs :=
  {| c_line := l; c_source := c_source k; c_kind := c_kind k;
     c_user := c_user k; c_prompt := c_prompt k; c_time := c_time k;
     c_level := c_level k; c_data := c_data k |}.

(** [Manager.console] *)
Definition console (line : string) (k : ConsoleArgs) : M unit :=
  for_each (split_lines (unicode line))
    (fun l => dispatch (Console (set_line l k));; mret tt).

(** [Manager.shutdown] *)
Definition shutdown : M unit := emit Interrupted.

(** ** Manager: handlers

    Each takes the fields of the event it is registered for. *)

(** [Manager.handle_server_output] *)
Definition handle_server_output (line time level data : string) : M unit :=
  dispatch (Console {| c_line := line; c_source := Some "server";
                       c_kind := None; c_user := None; c_prompt := None;
                       c_time := Some time; c_level := Some level;
                       c_data := Some data |});;
  mret tt.

(** [Manager.handle_console]: one [log.msg] per line of [event.value()]. *)
Definition handle_console (k : ConsoleArgs) : M unit :=
  fun env => for_each (split_lines (console_value env k))
               (fun line => emit (Logged line)) env.

(** [Manager.handle_fatal] *)
Definition handle_fatal (reason : option string) : M unit :=
  let s := "fatal error: " +:+ percent_s reason in
  console s (kw None (Some "error") None None);;
  shutdown.

(** [Manager.handle_server_started] *)
Definition handle_server_started : M unit :=
  properties_ ← load_server_properties;
  (if truthy properties_
   then me ← get_self; set_self (set_properties properties_ me)
   else mret tt);;
  me ← get_self;
  if negb (started me)
  then console "mark2 started." (kw None None None None);;
       me ← get_self;
       set_self (set_started true me)
  else mret tt.

(** [Manager.handle_user_attach], [Manager.handle_user_detach] *)
Definition handle_user_attach (user : string) : M unit :=
  console (user +:+ " attached") (kw None (Some "joinpart") None None).

Definition handle_user_detach (user : string) : M unit :=
  console (user +:+ " detached") (kw None (Some "joinpart") None None).

(** [Manager.handle_user_input]; the [yield] of the [inlineCallbacks]
    generator resumes with the result of the [Hook] dispatch. *)
Definition handle_user_input (line user : string) : M unit :=
  console line (kw (Some "user") None (Some user) None);;
  if startswith line "~"
  then handled ← dispatch (Hook line);
       if negb handled
       then console "unknown command." (kw None None None None)
       else mret tt
  else if startswith line "#"
  then mret tt
  else dispatch (ServerInput line (Some true));; mret tt.

(** [Manager.handle_player_join]: [list(self.players)] lists the members
    of the set, each once, in no particular order. *)
Definition handle_player_join (username : string) : M unit :=
  me ← get_self;
  set_self (set_players ({[ str username ]} ∪ players me) me);;
  me ← get_self;
  dispatch (StatPlayers (elements (players me)));;
  mret tt.

(** [Manager.handle_player_quit]: [discard] takes the name out when it
    is there. *)
Definition handle_player_quit (username : string) : M unit :=
  me ← get_self;
  set_self (set_players (players me ∖ {[ str username ]}) me);;
  me ← get_self;
  dispatch (StatPlayers (elements (players me)));;
  mret tt.

(** [Manager.handle_server_stopped] *)
Definition handle_server_stopped : M unit :=
  me ← get_self;
  set_self (set_players ∅ me);;
  dispatch (StatPlayers []);;
  mret tt.

(** Modelled from the spec: the priorities of events.py, in dispatch
    order; manager.py names the second one [_HIGH]. *)
Inductive EventPriority := CRITICAL | _HIGH | DEFAULT | MONITOR.

(** The registrations at the top of [really_start]
    ([self.events.register(self.handle_..., events.<Kind>, priority=...)],
    one per kind): the handler bound to an event of that kind, and its
    priority.  The other kinds have no handler in the manager. *)
Definition registration (e : Event) : option (M unit * EventPriority) :=
  match e with
  | ServerOutput line time level data =>
      Some (handle_server_output line time level data, MONITOR)
  | Console k => Some (handle_console k, MONITOR)
  | FatalError reason => Some (handle_fatal reason, _HIGH)
  | ServerStarted => Some (handle_server_started, MONITOR)
  | UserAttach user => Some (handle_user_attach user, MONITOR)
  | UserDetach user => Some (handle_user_detach user, MONITOR)
  | UserInput line user => Some (handle_user_input line user, MONITOR)
  | PlayerJoin username => Some (handle_player_join username, MONITOR)
  | PlayerQuit username => Some (handle_player_quit username, MONITOR)
  | ServerStopped => Some (handle_server_stopped, MONITOR)
  | _ => None
  end.

(** What the manager does when an event of its kind is dispatched. *)
Definition registered (e : Event) : M unit :=
  match registration e with
  | Some (h, _) => h
  | None => mret tt
  end.

(** Events delivered one after the other, each to its registered handler. *)
Definition deliver_all (es : list Event) : M unit := for_each es registered.

(** The [StatPlayers] broadcasts in a trace, oldest first. *)
Definition stat_broadcasts (t : list Action) : list (list string) :=
  flat_map (fun a => match a with
                     | Dispatched (StatPlayers ps) => [ps]
                     | _ => []
                     end) t.

(** ** The death classifier of [really_start] *)

Section Classifier.

(** [re.match(pattern, data)] followed, on a match, by [groupdict()]. *)
Variable re_match : string -> string -> option Groupdict.

(** A named group called like one of the explicit keywords of the
    [events.PlayerDeath(cause=..., format=..., **groupdict)] call. *)
Definition clashes (groups : Groupdict) : bool :=
  existsb (fun '(name, _) => String.eqb name "cause" || String.eqb name "format")
          groups.

(** [events.PlayerDeath(cause=cause, format=format, **m.groupdict())]:
    Python refuses a call that gives a keyword twice. *)
Definition new_PlayerDeath (cause : option string) (format : string)
           (groups : Groupdict) : M Event :=
  if clashes groups
  then raise (TypeError "got multiple values for keyword argument")
  else mret (PlayerDeath cause format groups).

(** [handler(e, cause=None)] over [deaths], a list of
    [(name, (pattern, format))]; the fields are those of the
    [ServerOutput] event [e]. *)
Fixpoint handler (deaths : list (string * (string * string)))
         (line time level data : string) (cause : option string) : M unit :=
  match deaths with
  | [] => mret tt
  | (name, (pattern, format)) :: rest =>
      match re_match pattern data with
      | Some groupdict =>
          ev ← new_PlayerDeath cause format groupdict;
          dispatch ev;;
          mret tt                                            (* break *)
      | None => handler rest line time level data cause
      end
  end.

End Classifier.

(** The [PlayerDeath] events in a trace, oldest first. *)
Definition death_events (t : list Action) : list Event :=
  flat_map (fun a => match a with
                     | Dispatched (PlayerDeath c f g) => [PlayerDeath c f g]
                     | _ => []
                     end) t.

(** ** Fixtures *)

(** Collaborators that answer nothing: no hook is handled, no properties
    file is found, a console line renders as its text. *)
Definition quiet : Env :=
  {| dispatch_result := fun _ _ => false;
     properties_load := fun _ => None;
     console_value := c_line |}.

(** A manager fresh from [__init__], before anything has happened. *)
Definition fresh : World := {| self := init; trace := [] |}.

Definition fall_table : list (string * (string * string)) :=
  [("fall", ("^(?P<victim>\w+) fell from a high place$", "{victim} fell."))].

Definition clash_table : list (string * (string * string)) :=
  [("slain", ("^(?P<cause>\w+) died$", "{cause} died."))].

(** * Observations on traces *)

(** The [Console] dispatches of one [self.console(line, **k)] call. *)
Definition dispatched_lines (k : ConsoleArgs) (ls : list string) : list Action :=
  map (fun l => Dispatched (Console (set_line l k))) ls.

(** A text without a line feed is a single console line. *)
Definition single_line (s : string) : bool :=
  forallb (fun c => negb (Ascii.eqb c LF)) (list_ascii_of_string s).

(** No pattern of [deaths] matches [data]. *)
Definition unmatched (re_match : string -> string -> option Groupdict)
           (data : string) (deaths : list (string * (string * string))) : Prop :=
  Forall (fun entry => re_match (fst (snd entry)) data = None) deaths.

(** The echo of an input line: [self.console(line, user=user, source="user")]. *)
Definition echo (line user : string) : list Action :=
  dispatched_lines (kw (Some "user") None (Some user) None) (split_lines line).

(** [self.console("unknown command.")] *)
Definition unknown_command : Action :=
  Dispatched (Console (set_line "unknown command." (kw None None None None))).

Definition is_hook (a : Action) : bool :=
  match a with
  | Dispatched (Hook _) => true
  | _ => false
  end.

Definition is_server_input (a : Action) : bool :=
  match a with
  | Dispatched (ServerInput _ _) => true
  | _ => false
  end.

(** A console line of mark2 itself (no source, kind or user) with the
    given text. *)
Definition is_notice (text : string) (a : Action) : bool :=
  match a with
  | Dispatched (Console k) =>
      match c_source k, c_kind k, c_user k with
      | None, None, None => String.eqb (c_line k) text
      | _, _, _ => false
      end
  | _ => false
  end.

Definition is_user_console (user : string) (a : Action) : Prop :=
  exists k, a = Dispatched (Console k)
            /\ c_source k = Some "user" /\ c_user k = Some user.

(** What follows the echo, given the answer to the [Hook] dispatch. *)
Definition branch (line : string) (handled : bool) : list Action :=
  if startswith line "~"
  then Dispatched (Hook line) :: (if handled then [] else [unknown_command])
  else if startswith line "#" then []
  else [Dispatched (ServerInput line (Some true))].

(** The text of a console dispatch. *)
Definition console_line (a : Action) : string :=
  match a with
  | Dispatched (Console k) => c_line k
  | _ => ""
  end.

(** [self.console("mark2 started.")] *)
Definition started_message : Action :=
  Dispatched (Console (set_line "mark2 started." (kw None None None None))).

Definition is_load (a : Action) : bool :=
  match a with
  | LoadedProperties => true
  | _ => false
  end.

Definition is_server_started (e : Event) : bool :=
  match e with
  | ServerStarted => true
  | _ => false
  end.

(** How many elements of a list pass a test. *)
Definition count {A} (P : A -> bool) (l : list A) : nat :=
  length (List.filter P l).

(** How often "mark2 started." was printed, and how often
    server.properties was loaded. *)
Definition announcements (t : list Action) : nat :=
  count (is_notice "mark2 started.") t.
Definition reloads (t : list Action) : nat := count is_load t.

(** * Further code of the manager *)

(** [Manager.fatal_error]: [a] are the positional arguments and
    [k_reason] the [reason=] keyword of the call, if any;
    [k['reason'] = a[0] if a else None] rebinds the keyword before the
    event is built. *)
Definition fatal_error (a : list string) (k_reason : option string) : M unit :=
  let k_reason := match a with
                  | a0 :: _ => Some a0
                  | [] => None
                  end in
  dispatch (FatalError k_reason);;
  mret tt.

(** [Manager.send]: [events.ServerInput(line=line)], no [parse_colors]. *)
Definition send (line : string) : M unit :=
  dispatch (ServerInput line None);;
  mret tt.

(** [Manager.handle_command] *)
Definition handle_command (user text : string) : M unit :=
  console text (kw None None (Some user) (Some ">"));;
  send text.

(** The log object [Manager.start_logging] builds: twisted's
    [DailyLogFile(name, directory)] or
    [LogFile(name, directory, rotateLength=..., maxRotatedFiles=...)]. *)
Inductive LogObject :=
| DailyLogFile (name directory : string)
| LogFile (name directory : string) (rotateLength maxRotatedFiles : option string).

(** [Manager.start_logging], on the three values it reads from
    [self.config] ([mark2.log.rotate_mode], [rotate_size],
    [rotate_limit]): the log object it hands to [log.startLogging], or
    the message of the [ValueError] it raises. *)
Definition start_logging (server_name shared_path : string)
           (log_rotate log_size log_limit : string) : LogObject + string :=
  if String.eqb log_rotate "daily"
  then inl (DailyLogFile (server_name +:+ ".log") shared_path)
  else if String.eqb log_rotate "off" || String.eqb log_rotate "size"
  then inl (LogFile (server_name +:+ ".log") shared_path
                    (if String.eqb log_rotate "size" then Some log_size else None)
                    (if negb (String.eqb log_limit "") then Some log_limit else None))
  else inr "mark2.log.rotate-mode is invalid.".

(** * Further observations *)

(** How many line feeds a text holds. *)
Fixpoint line_feeds (s : string) : nat :=
  match s with
  | EmptyString => 0
  | String c rest => (if Ascii.eqb c LF then 1 else 0) + line_feeds rest
  end.

(** The events whose handlers write the players set. *)
Definition is_players_event (e : Event) : bool :=
  match e with
  | PlayerJoin _ | PlayerQuit _ | ServerStopped => true
  | _ => false
  end.

(** The players set one event leaves, as a function of the set before. *)
Definition players_after (e : Event) (ps : gset string) : gset string :=
  match e with
  | PlayerJoin username => {[ username ]} ∪ ps
  | PlayerQuit username => ps ∖ {[ username ]}
  | ServerStopped => ∅
  | _ => ps
  end.

(** The players set a sequence of events leaves. *)
Definition players_of (es : list Event) (ps : gset string) : gset string :=
  fold_left (fun ps e => players_after e ps) es ps.

(** The last [StatPlayers] broadcast names exactly the players; before
    any broadcast there are none. *)
Definition mirrored (w : World) : Prop :=
  match last (stat_broadcasts (trace w)) with
  | Some names => list_to_set names = players (self w)
  | None => players (self w) = ∅
  end.

Definition is_death (a : Action) : bool :=
  match a with
  | Dispatched (PlayerDeath _ _ _) => true
  | _ => false
  end.

Definition is_dispatch (a : Action) : bool :=
  match a with
  | Dispatched _ => true
  | _ => false
  end.

(** The first entry of the death table whose pattern matches [data]. *)
Definition first_match (re_match : string -> string -> option Groupdict)
           (data : string) (deaths : list (string * (string * string)))
  : option (string * Groupdict) :=
  List.fold_right
    (fun entry later =>
       match re_match (fst (snd entry)) data with
       | Some groups => Some (snd (snd entry), groups)
       | None => later
       end) None deaths.

(** * Properties *)

(** ** Console output *)

Lemma for_each_dispatch k ls env w :
  for_each ls (fun l => dispatch (Console (set_line l k));; mret tt) env w
  = Returned tt {| self := self w; trace := trace w ++ dispatched_lines k ls |}.
Proof.
  revert w. induction ls as [|l ls IH]; intros w; simpl.
  - rewrite app_nil_r. destruct w; reflexivity.
  - unfold mbind, M_bind at 1. simpl. rewrite IH. simpl.
    rewrite <- app_assoc. reflexivity.
Qed.

Lemma console_spec line k env w :
  console line k env w
  = Returned tt {| self := self w;
                   trace := trace w ++ dispatched_lines k (split_lines line) |}.
Proof. apply for_each_dispatch. Qed.

Lemma split_lines_single s : single_line s = true -> split_lines s = [s].
Proof.
  unfold single_line. induction s as [|c s IH]; simpl; [reflexivity|].
  intros H. apply andb_prop in H as [Hc Hs].
  apply negb_true_iff in Hc. rewrite Hc, (IH Hs). reflexivity.
Qed.

Lemma split_lines_nonempty s : split_lines s <> [].
Proof.
  destruct s as [|c s]; simpl; [discriminate|].
  destruct (Ascii.eqb c LF); [discriminate|].
  destruct (split_lines s); discriminate.
Qed.

(** ** The death classifier *)

Lemma handler_no_match re_match deaths line time level data cause env w :
  unmatched re_match data deaths ->
  handler re_match deaths line time level data cause env w = Returned tt w.
Proof.
  induction 1 as [|[name [pattern format]] rest Hno _ IH]; simpl in *.
  - reflexivity.
  - rewrite Hno. exact IH.
Qed.

Lemma handler_skips re_match before deaths line time level data cause env w :
  unmatched re_match data before ->
  handler re_match (before ++ deaths) line time level data cause env w
  = handler re_match deaths line time level data cause env w.
Proof.
  induction 1 as [|[name [pattern format]] rest Hno _ IH]; simpl in *.
  - reflexivity.
  - rewrite Hno. exact IH.
Qed.

(** C1 (as amended): the classifier walks the death table in order; the
    first entry whose pattern matches the event's data, when none of its
    named groups is called [cause] or [format], makes it dispatch exactly
    one [PlayerDeath] built from the groups, the caller's [cause] and the
    entry's format, whatever entries follow; a line no entry matches
    dispatches nothing; and the table with the single "fall" entry turns
    "Steve fell from a high place" into
    [PlayerDeath{victim="Steve", format="{victim} fell."}] and nothing else. *)
Theorem death_classifier_first_match :
  (forall re_match before name pattern format after
          line time level data cause groups env w,
      unmatched re_match data before ->
      re_match pattern data = Some groups ->
      clashes groups = false ->
      handler re_match (before ++ (name, (pattern, format)) :: after)
              line time level data cause env w
      = Returned tt
          {| self := self w;
             trace := trace w ++ [Dispatched (PlayerDeath cause format groups)] |})
  /\ (forall re_match deaths line time level data cause env w,
         unmatched re_match data deaths ->
         handler re_match deaths line time level data cause env w
         = Returned tt w)
  /\ (forall line time level env w,
         handler Re.match_groupdict fall_table
                 line time level "Steve fell from a high place" None env w
         = Returned tt
             {| self := self w;
                trace := trace w ++
                  [Dispatched (PlayerDeath None "{victim} fell."
                                           [("victim", Some "Steve")])] |}).
Proof.
  assert (Hfirst : forall re_match name pattern format after
                          line time level data cause groups env w,
             re_match pattern data = Some groups ->
             clashes groups = false ->
             handler re_match ((name, (pattern, format)) :: after)
                     line time level data cause env w
             = Returned tt
                 {| self := self w;
                    trace := trace w ++
                      [Dispatched (PlayerDeath cause format groups)] |}).
  { intros * Hmatch Hclash. simpl. rewrite Hmatch.
    unfold mbind, M_bind, new_PlayerDeath. rewrite Hclash. reflexivity. }
  split; [|split].
  - intros * Hbefore Hmatch Hclash.
    rewrite handler_skips by assumption. now apply Hfirst.
  - intros. now apply handler_no_match.
  - intros. unfold fall_table. apply Hfirst; vm_compute; reflexivity.
Qed.

Lemma death_classifier_first_match_witness :
  unmatched Re.match_groupdict "Steve fell from a high place" clash_table
  /\ Re.match_groupdict "^(?P<victim>\w+) fell from a high place$"
                        "Steve fell from a high place"
     = Some [("victim", Some "Steve")]
  /\ clashes [("victim", Some "Steve")] = false
  /\ handler Re.match_groupdict (clash_table ++ fall_table)
             "Steve fell from a high place" "12:00:00" "INFO"
             "Steve fell from a high place" (Some "gravity") quiet fresh
     = Returned tt
         {| self := init;
            trace := [Dispatched (PlayerDeath (Some "gravity") "{victim} fell."
                                              [("victim", Some "Steve")])] |}.
Proof.
  assert (H1 : unmatched Re.match_groupdict "Steve fell from a high place"
                         clash_table).
  { repeat constructor. }
  assert (H2 : Re.match_groupdict "^(?P<victim>\w+) fell from a high place$"
                                  "Steve fell from a high place"
               = Some [("victim", Some "Steve")]).
  { vm_compute. reflexivity. }
  assert (H3 : clashes [("victim", Some "Steve")] = false).
  { reflexivity. }
  split; [exact H1|]. split; [exact H2|]. split; [exact H3|].
  exact (proj1 death_classifier_first_match Re.match_groupdict
               clash_table "fall" _ "{victim} fell." []
               "Steve fell from a high place" "12:00:00" "INFO"
               "Steve fell from a high place" (Some "gravity") _ quiet fresh
               H1 H2 H3).
Defined.

(** C1, as stated, fails: the only entry of [clash_table] matches
    "Steve died", and the call that builds the event is given [cause]
    twice, so the handler raises and no [PlayerDeath] is dispatched. *)
Lemma death_classifier_keyword_clash :
  Re.match_groupdict "^(?P<cause>\w+) died$" "Steve died"
  = Some [("cause", Some "Steve")]
  /\ handler Re.match_groupdict clash_table
             "Steve died" "12:00:00" "INFO" "Steve died" None quiet fresh
     = Raised (TypeError "got multiple values for keyword argument") fresh
  /\ death_events
       (trace (final (handler Re.match_groupdict clash_table
                              "Steve died" "12:00:00" "INFO" "Steve died"
                              None quiet fresh)))
     = [].
Proof. repeat split; vm_compute; reflexivity. Qed.

(** ** User input *)

Lemma handle_user_input_spec line user env w :
  handle_user_input line user env w
  = Returned tt
      {| self := self w;
         trace := trace w ++ echo line user ++
                  branch line (dispatch_result env (trace w ++ echo line user)
                                               (Hook line)) |}.
Proof.
  unfold handle_user_input, branch, mbind, M_bind.
  rewrite console_spec. fold (echo line user).
  destruct (startswith line "~").
  - unfold dispatch at 1. simpl.
    destruct (dispatch_result env _ _); simpl.
    + unfold mret, M_ret. rewrite <- app_assoc. reflexivity.
    + rewrite console_spec. simpl. rewrite <- !app_assoc. reflexivity.
  - destruct (startswith line "#"); simpl.
    + unfold mret, M_ret. rewrite app_nil_r. reflexivity.
    + unfold mret, M_ret. rewrite <- app_assoc. reflexivity.
Qed.

Lemma existsb_dispatched_lines (P : Action -> bool) k ls :
  (forall l, P (Dispatched (Console (set_line l k))) = false) ->
  existsb P (dispatched_lines k ls) = false.
Proof.
  intros HP. induction ls as [|l ls IH]; simpl; [reflexivity|].
  rewrite HP. exact IH.
Qed.

Lemma echo_only_echoes line user :
  existsb (fun a => is_hook a || is_server_input a
                    || is_notice "unknown command." a) (echo line user)
  = false.
Proof. apply existsb_dispatched_lines. reflexivity. Qed.

Lemma split_lines_join s : String.concat (String LF "") (split_lines s) = s.
Proof.
  induction s as [|c s IH]; simpl; [reflexivity|].
  destruct (Ascii.eqb_spec c LF) as [->|Hc].
  - pose proof (split_lines_nonempty s).
    destruct (split_lines s) eqn:E; [contradiction|].
    simpl in *. rewrite IH. reflexivity.
  - destruct (split_lines s) as [|seg segs] eqn:E;
      [exfalso; eapply split_lines_nonempty; eauto|].
    simpl in *. destruct segs; simpl in *; rewrite <- IH; reflexivity.
Qed.

Lemma console_lines_dispatched k ls :
  map console_line (dispatched_lines k ls) = ls.
Proof.
  induction ls as [|l ls IH]; simpl; [reflexivity|]. now rewrite IH.
Qed.

(** C2: an input line that begins with "~" is dispatched as a [Hook]
    carrying the line; when that dispatch comes back unhandled the console
    gets "unknown command."; no [ServerInput] is produced. *)
Theorem unknown_command_reported line user env w :
  startswith line "~" = true ->
  handle_user_input line user env w
  = Returned tt
      {| self := self w;
         trace := trace w ++ echo line user ++
                  Dispatched (Hook line) ::
                  (if dispatch_result env (trace w ++ echo line user) (Hook line)
                   then [] else [unknown_command]) |}
  /\ existsb is_server_input
       (echo line user ++
        Dispatched (Hook line) ::
        (if dispatch_result env (trace w ++ echo line user) (Hook line)
         then [] else [unknown_command]))
     = false.
Proof.
  intros Hcmd. split.
  - rewrite handle_user_input_spec. unfold branch. rewrite Hcmd. reflexivity.
  - rewrite existsb_app. apply orb_false_iff. split.
    + apply existsb_dispatched_lines. reflexivity.
    + destruct (dispatch_result env _ _); reflexivity.
Qed.

Lemma unknown_command_reported_witness :
  startswith "~foo" "~" = true
  /\ handle_user_input "~foo" "op" quiet fresh
     = Returned tt
         {| self := init;
            trace :=
              [Dispatched (Console (set_line "~foo"
                             (kw (Some "user") None (Some "op") None)));
               Dispatched (Hook "~foo");
               Dispatched (Console (set_line "unknown command."
                             (kw None None None None)))] |}.
Proof.
  split; [reflexivity|].
  exact (proj1 (unknown_command_reported "~foo" "op" quiet fresh eq_refl)).
Defined.

(** C6: an input line that begins with "#" goes no further than the echo
    (no [Hook], no [ServerInput], no "unknown command."); a line that
    begins with neither "~" nor "#" is forwarded as a [ServerInput] with
    [parse_colors=True]. *)
Theorem comment_dropped_else_forwarded line user env w :
  startswith line "~" = false ->
  handle_user_input line user env w
  = Returned tt
      {| self := self w;
         trace := trace w ++ echo line user ++
                  (if startswith line "#" then []
                   else [Dispatched (ServerInput line (Some true))]) |}
  /\ existsb (fun a => is_hook a || is_server_input a
                       || is_notice "unknown command." a) (echo line user)
     = false.
Proof.
  intros Hcmd. split.
  - rewrite handle_user_input_spec. unfold branch. rewrite Hcmd. reflexivity.
  - apply echo_only_echoes.
Qed.

Lemma comment_dropped_else_forwarded_witness :
  (startswith "#restart at noon" "~" = false
   /\ handle_user_input "#restart at noon" "op" quiet fresh
      = Returned tt
          {| self := init;
             trace := [Dispatched (Console (set_line "#restart at noon"
                                      (kw (Some "user") None (Some "op") None)))] |})
  /\ (startswith "say hello" "~" = false
      /\ handle_user_input "say hello" "op" quiet fresh
         = Returned tt
             {| self := init;
                trace := [Dispatched (Console (set_line "say hello"
                                         (kw (Some "user") None (Some "op") None)));
                          Dispatched (ServerInput "say hello" (Some true))] |}).
Proof.
  split; (split; [reflexivity|]).
  - exact (proj1 (comment_dropped_else_forwarded
                    "#restart at noon" "op" quiet fresh eq_refl)).
  - exact (proj1 (comment_dropped_else_forwarded
                    "say hello" "op" quiet fresh eq_refl)).
Defined.

(** C10: whatever the line, the handler's first actions are the echo of
    the line to the console, tagged [source="user"] and with the user who
    typed it, one [Console] per line of text; the command, comment or
    pass-through branch only comes after it. *)
Theorem user_input_echoed_first line user env w :
  handle_user_input line user env w
  = Returned tt
      {| self := self w;
         trace := trace w ++ echo line user ++
                  branch line (dispatch_result env (trace w ++ echo line user)
                                               (Hook line)) |}
  /\ echo line user <> []
  /\ Forall (is_user_console user) (echo line user)
  /\ String.concat (String LF "") (map console_line (echo line user)) = line
  /\ (if single_line line
      then echo line user
           = [Dispatched (Console {| c_line := line; c_source := Some "user";
                                     c_kind := None; c_user := Some user;
                                     c_prompt := None; c_time := None;
                                     c_level := None; c_data := None |})]
      else True).
Proof.
  split; [apply handle_user_input_spec|].
  unfold echo. split; [|split; [|split]].
  - pose proof (split_lines_nonempty line).
    destruct (split_lines line); [contradiction|discriminate].
  - induction (split_lines line) as [|l ls IH]; constructor; [|exact IH].
    eexists. split; [reflexivity|]. split; reflexivity.
  - rewrite console_lines_dispatched. apply split_lines_join.
  - destruct (single_line line) eqn:E; [|exact I].
    rewrite (split_lines_single _ E). reflexivity.
Qed.

(** ** The players set *)

Lemma handle_player_join_spec username env w :
  handle_player_join username env w
  = Returned tt
      {| self := set_players ({[ username ]} ∪ players (self w)) (self w);
         trace := trace w ++
           [Dispatched (StatPlayers
                          (elements ({[ username ]} ∪ players (self w))))] |}.
Proof. reflexivity. Qed.

Lemma handle_player_quit_spec username env w :
  handle_player_quit username env w
  = Returned tt
      {| self := set_players (players (self w) ∖ {[ username ]}) (self w);
         trace := trace w ++
           [Dispatched (StatPlayers
                          (elements (players (self w) ∖ {[ username ]})))] |}.
Proof. reflexivity. Qed.

Lemma set_players_same (m : Manager) : set_players (players m) m = m.
Proof. destruct m; reflexivity. Qed.

(** C3: a [PlayerJoin] adds the username to the players set, a
    [PlayerQuit] removes it, and either is followed by one [StatPlayers]
    carrying the members of the set as it then is; joining Alice, then
    Bob, then Alice quitting, from the empty set, leaves the set {Bob}
    and a last broadcast of exactly Bob. *)
Theorem players_follow_join_and_quit :
  forall env,
    (forall username w,
        let ps := {[ username ]} ∪ players (self w) in
        registered (PlayerJoin username) env w
        = Returned tt
            {| self := set_players ps (self w);
               trace := trace w ++ [Dispatched (StatPlayers (elements ps))] |}
        /\ (forall p, p ∈ elements ps <-> p = username \/ p ∈ players (self w)))
    /\ (forall username w,
           let ps := players (self w) ∖ {[ username ]} in
           registered (PlayerQuit username) env w
           = Returned tt
               {| self := set_players ps (self w);
                  trace := trace w ++ [Dispatched (StatPlayers (elements ps))] |}
           /\ (forall p, p ∈ elements ps <-> p ∈ players (self w) /\ p <> username))
    /\ (let w' := final (deliver_all [PlayerJoin "Alice"; PlayerJoin "Bob";
                                      PlayerQuit "Alice"] env fresh) in
        players (self w') = {[ "Bob" ]}
        /\ last (stat_broadcasts (trace w')) = Some ["Bob"]).
Proof.
  intros env. split; [|split].
  - intros username w ps. split; [reflexivity|].
    intros p. subst ps. rewrite elem_of_elements, elem_of_union, elem_of_singleton.
    reflexivity.
  - intros username w ps. split; [reflexivity|].
    intros p. subst ps.
    rewrite elem_of_elements, elem_of_difference, elem_of_singleton.
    reflexivity.
  - simpl. split; vm_compute; reflexivity.
Qed.

(** C4: whatever the players set held, [ServerStopped] empties it and
    broadcasts a [StatPlayers] with no players. *)
Theorem server_stopped_clears_players env w :
  registered ServerStopped env w
  = Returned tt
      {| self := set_players ∅ (self w);
         trace := trace w ++ [Dispatched (StatPlayers [])] |}
  /\ players (self (final (registered ServerStopped env w))) = ∅
  /\ last (stat_broadcasts (trace (final (registered ServerStopped env w))))
     = Some [].
Proof.
  split; [reflexivity|]. split; [reflexivity|].
  simpl. unfold stat_broadcasts. rewrite flat_map_app. simpl.
  apply last_snoc.
Qed.

(** C9: a [PlayerQuit] for somebody who is not in the players set returns
    normally, leaves the manager as it was and still broadcasts the
    members of the (unchanged) set. *)
Theorem quit_of_absent_player username env w :
  username ∉ players (self w) ->
  handle_player_quit username env w
  = Returned tt
      {| self := self w;
         trace := trace w ++
           [Dispatched (StatPlayers (elements (players (self w))))] |}.
Proof.
  intros Habsent. rewrite handle_player_quit_spec.
  assert (E : players (self w) ∖ {[ username ]} = players (self w)).
  { apply set_eq. intros p. rewrite elem_of_difference, elem_of_singleton.
    split; [intros [Hp _]; exact Hp|].
    intros Hp. split; [exact Hp|]. intros ->. contradiction. }
  rewrite E, set_players_same. reflexivity.
Qed.

Lemma quit_of_absent_player_witness :
  ("Alice" ∉ players (self fresh))
  /\ handle_player_quit "Alice" quiet fresh
     = Returned tt
         {| self := init;
            trace := [Dispatched (StatPlayers (elements (players init)))] |}.
Proof.
  assert (H : "Alice" ∉ players (self fresh)) by apply not_elem_of_empty.
  split; [exact H|].
  exact (quit_of_absent_player "Alice" quiet fresh H).
Defined.

(** ** Server output and fatal errors *)

(** C8: the handler of [ServerOutput], registered at MONITOR priority,
    dispatches exactly one [Console] event, tagged [source="server"], that
    carries the line, time, level and data of the event unchanged. *)
Theorem server_output_mirrored line time level data env w :
  registration (ServerOutput line time level data)
  = Some (handle_server_output line time level data, MONITOR)
  /\ handle_server_output line time level data env w
     = Returned tt
         {| self := self w;
            trace := trace w ++
              [Dispatched (Console {| c_line := line;
                                      c_source := Some "server";
                                      c_kind := None; c_user := None;
                                      c_prompt := None;
                                      c_time := Some time;
                                      c_level := Some level;
                                      c_data := Some data |})] |}.
Proof. split; reflexivity. Qed.

Lemma handle_fatal_spec reason env w :
  handle_fatal reason env w
  = Returned tt
      {| self := self w;
         trace := trace w ++
           dispatched_lines (kw None (Some "error") None None)
             (split_lines ("fatal error: " +:+ percent_s reason))
           ++ [Interrupted] |}.
Proof.
  unfold handle_fatal, mbind, M_bind. rewrite console_spec.
  unfold shutdown, emit. cbn [self trace]. rewrite <- app_assoc. reflexivity.
Qed.

(** C7: the handler of [FatalError], registered at the high priority,
    always returns, and what it does is: the text "fatal error: <reason>"
    to the console (kind "error"), then the interrupt that shuts the
    process down, which is the last thing in the trace. *)
Theorem fatal_error_shuts_down reason env w :
  let report :=
    dispatched_lines (kw None (Some "error") None None)
      (split_lines ("fatal error: " +:+ percent_s reason)) in
  registration (FatalError reason) = Some (handle_fatal reason, _HIGH)
  /\ handle_fatal reason env w
     = Returned tt {| self := self w;
                      trace := trace w ++ report ++ [Interrupted] |}
  /\ report <> []
  /\ String.concat (String LF "") (map console_line report)
     = "fatal error: " +:+ percent_s reason
  /\ last (trace (final (handle_fatal reason env w))) = Some Interrupted.
Proof.
  intros report. split; [reflexivity|].
  split; [apply handle_fatal_spec|]. subst report. split; [|split].
  - pose proof (split_lines_nonempty ("fatal error: " +:+ percent_s reason)).
    destruct (split_lines _); [contradiction|discriminate].
  - rewrite console_lines_dispatched. apply split_lines_join.
  - rewrite handle_fatal_spec. simpl. rewrite app_assoc. apply last_snoc.
Qed.

(** ** Server start *)

Lemma count_app {A} (P : A -> bool) l1 l2 :
  count P (l1 ++ l2) = count P l1 + count P l2.
Proof. unfold count. now rewrite List.filter_app, length_app. Qed.

Lemma count_none {A} (P : A -> bool) l : existsb P l = false -> count P l = 0.
Proof.
  unfold count. induction l as [|a l IH]; simpl; [reflexivity|].
  intros H. apply orb_false_iff in H as [Ha Hl]. rewrite Ha. now apply IH.
Qed.

Lemma for_each_emit (f : string -> Action) ls env w :
  for_each ls (fun l => emit (f l)) env w
  = Returned tt {| self := self w; trace := trace w ++ map f ls |}.
Proof.
  revert w. induction ls as [|l ls IH]; intros w; simpl.
  - rewrite app_nil_r. destruct w; reflexivity.
  - unfold mbind, M_bind at 1. simpl. rewrite IH. simpl.
    rewrite <- app_assoc. reflexivity.
Qed.

Lemma existsb_map_Logged (P : Action -> bool) ls :
  (forall l, P (Logged l) = false) -> existsb P (map Logged ls) = false.
Proof.
  intros HP. induction ls as [|l ls IH]; simpl; [reflexivity|].
  rewrite HP. exact IH.
Qed.

Lemma handle_server_started_spec env w :
  handle_server_started env w
  = Returned tt
      {| self := set_started true
           (if truthy (properties_load env (trace w))
            then set_properties (properties_load env (trace w)) (self w)
            else self w);
         trace := trace w ++ LoadedProperties ::
                    (if started (self w) then [] else [started_message]) |}.
Proof.
  destruct w as [[ps st pr] t].
  unfold handle_server_started, mbind, M_bind, load_server_properties.
  cbn [self trace].
  destruct (truthy (properties_load env t)); destruct st;
    cbn -[console]; rewrite ?console_spec; cbn; rewrite <- ?app_assoc;
    reflexivity.
Qed.

(** What one delivery does to the two counters and to [started]. *)
Lemma registered_effect e env w :
  exists w',
    registered e env w = Returned tt w'
    /\ reloads (trace w')
       = reloads (trace w) + (if is_server_started e then 1 else 0)
    /\ (started (self w) = true ->
        started (self w') = true
        /\ announcements (trace w') = announcements (trace w)).
Proof.
  unfold reloads, announcements.
  destruct e; unfold registered, registration; cbv beta iota;
    try (exists w; split; [reflexivity|]; cbn [is_server_started];
         split; [lia|tauto]).
  - (* ServerOutput *)
    eexists. split; [reflexivity|]. cbn [self trace].
    rewrite !count_app. cbn. split; [lia|]. intros ->. split; [reflexivity|lia].
  - (* Console *)
    unfold handle_console. rewrite for_each_emit.
    eexists. split; [reflexivity|]. cbn [self trace]. rewrite !count_app.
    rewrite !(count_none _ (map Logged _))
      by (apply existsb_map_Logged; reflexivity).
    cbn [is_server_started]. split; [lia|]. intros ->. split; [reflexivity|lia].
  - (* FatalError *)
    rewrite handle_fatal_spec.
    eexists. split; [reflexivity|]. cbn [self trace]. rewrite !count_app.
    rewrite !(count_none _ (dispatched_lines _ _))
      by (apply existsb_dispatched_lines; reflexivity).
    cbn. split; [lia|]. intros ->. split; [reflexivity|lia].
  - (* ServerStarted *)
    rewrite handle_server_started_spec.
    eexists. split; [reflexivity|]. cbn [self trace]. rewrite !count_app.
    split.
    + destruct (started (self w)); cbn; lia.
    + intros ->. split; [reflexivity|]. cbn. lia.
  - (* ServerStopped *)
    eexists. split; [reflexivity|]. cbn [self trace].
    rewrite !count_app. cbn. split; [lia|]. intros ->. split; [reflexivity|lia].
  - (* UserAttach *)
    unfold handle_user_attach. rewrite console_spec.
    eexists. split; [reflexivity|]. cbn [self trace]. rewrite !count_app.
    rewrite !(count_none _ (dispatched_lines _ _))
      by (apply existsb_dispatched_lines; reflexivity).
    cbn [is_server_started]. split; [lia|]. intros ->. split; [reflexivity|lia].
  - (* UserDetach *)
    unfold handle_user_detach. rewrite console_spec.
    eexists. split; [reflexivity|]. cbn [self trace]. rewrite !count_app.
    rewrite !(count_none _ (dispatched_lines _ _))
      by (apply existsb_dispatched_lines; reflexivity).
    cbn [is_server_started]. split; [lia|]. intros ->. split; [reflexivity|lia].
  - (* UserInput *)
    rewrite handle_user_input_spec.
    eexists. split; [reflexivity|]. cbn [self trace]. rewrite !count_app.
    unfold echo.
    rewrite !(count_none _ (dispatched_lines _ _))
      by (apply existsb_dispatched_lines; reflexivity).
    unfold branch.
    destruct (startswith line "~"), (startswith line "#");
      try match goal with
          | |- context [dispatch_result ?e ?t ?h] =>
              destruct (dispatch_result e t h)
          end;
      cbn; (split; [lia|]; intros ->; split; [reflexivity|lia]).
  - (* PlayerJoin *)
    rewrite handle_player_join_spec.
    eexists. split; [reflexivity|]. cbn [self trace].
    rewrite !count_app. cbn. split; [lia|]. intros ->. split; [reflexivity|lia].
  - (* PlayerQuit *)
    rewrite handle_player_quit_spec.
    eexists. split; [reflexivity|]. cbn [self trace].
    rewrite !count_app. cbn. split; [lia|]. intros ->. split; [reflexivity|lia].
Qed.

Lemma deliver_all_effect es env w :
  exists w',
    deliver_all es env w = Returned tt w'
    /\ reloads (trace w')
       = reloads (trace w) + count is_server_started es
    /\ (started (self w) = true ->
        started (self w') = true
        /\ announcements (trace w') = announcements (trace w)).
Proof.
  unfold deliver_all. revert w.
  induction es as [|e es IH]; intros w.
  - exists w. split; [reflexivity|]. split; [unfold count; simpl; lia|tauto].
  - destruct (registered_effect e env w) as (w1 & Hrun & Hloads & Hkeep).
    destruct (IH w1) as (w2 & Hrest & Hloads2 & Hkeep2).
    exists w2. split; [|split].
    + cbn [for_each]. unfold mbind, M_bind at 1. rewrite Hrun. exact Hrest.
    + rewrite Hloads2, Hloads. unfold count. simpl.
      destruct (is_server_started e); simpl; lia.
    + intros Hst. destruct (Hkeep Hst) as [Hst1 Ha1].
      destruct (Hkeep2 Hst1) as [Hst2 Ha2]. split; [exact Hst2|]. lia.
Qed.

(** C5: handling [ServerStarted] loads server.properties every time and
    mirrors what was loaded, prints "mark2 started." only when the
    manager was not yet started (so once on the first [ServerStarted],
    not at all on one that finds it started), and leaves it started; and
    once one [ServerStarted] has been handled, whatever events are
    delivered afterwards, the message is never printed again, while every
    further [ServerStarted] among them loads the properties once more. *)
Theorem server_started_announced_once env w :
  let loaded := properties_load env (trace w) in
  let w1 := final (registered ServerStarted env w) in
  registered ServerStarted env w
  = Returned tt
      {| self := set_started true
           (if truthy loaded then set_properties loaded (self w) else self w);
         trace := trace w ++ LoadedProperties ::
                    (if started (self w) then [] else [started_message]) |}
  /\ announcements (trace w1)
     = announcements (trace w) + (if started (self w) then 0 else 1)
  /\ reloads (trace w1) = reloads (trace w) + 1
  /\ forall es,
       let w2 := final (deliver_all es env w1) in
       returns (deliver_all es env w1) = true
       /\ announcements (trace w2) = announcements (trace w1)
       /\ reloads (trace w2) = reloads (trace w1) + count is_server_started es.
Proof.
  intros loaded w1.
  assert (Hspec := handle_server_started_spec env w).
  split; [exact Hspec|].
  assert (Hw1 : trace w1 = trace w ++ LoadedProperties ::
                  (if started (self w) then [] else [started_message])).
  { subst w1. unfold registered, registration. rewrite Hspec. reflexivity. }
  split; [|split].
  { rewrite Hw1. unfold announcements. rewrite count_app.
    destruct (started (self w)); reflexivity. }
  { rewrite Hw1. unfold reloads. rewrite count_app.
    destruct (started (self w)); reflexivity. }
  intros es w2.
  assert (Hst : started (self w1) = true).
  { subst w1. unfold registered, registration. rewrite Hspec. reflexivity. }
  destruct (deliver_all_effect es env w1) as (w' & Hrun & Hloads & Hkeep).
  subst w2. rewrite Hrun. cbn [final returns].
  split; [reflexivity|]. split; [apply (Hkeep Hst)|exact Hloads].
Qed.

(** * Further properties *)

(** ** Further properties: console output *)

Lemma split_lines_length s : length (split_lines s) = S (line_feeds s).
Proof.
  induction s as [|c s IH]; simpl; [reflexivity|].
  destruct (Ascii.eqb c LF); simpl.
  - now rewrite IH.
  - pose proof (split_lines_nonempty s).
    destruct (split_lines s); [contradiction|]. simpl in *. lia.
Qed.

Lemma split_lines_segments s : Forall (fun l => single_line l = true) (split_lines s).
Proof.
  induction s as [|c s IH]; simpl.
  - repeat constructor.
  - destruct (Ascii.eqb c LF) eqn:Ec.
    + constructor; [reflexivity|exact IH].
    + destruct (split_lines s) as [|seg segs]; [repeat constructor; unfold single_line; simpl; now rewrite Ec|].
      inversion IH as [|? ? Hseg Hsegs]; subst.
      constructor; [|exact Hsegs].
      unfold single_line in *. simpl. now rewrite Ec, Hseg.
Qed.

(** X1: [console] always returns and leaves the manager alone; it
    dispatches one [Console] per line of the text, that is one more than
    the text has line feeds; every one carries the keywords of the call;
    no line holds a line feed, and joined by line feeds the lines give
    the text back. *)
Theorem console_line_by_line line k env w :
  let added := dispatched_lines k (split_lines line) in
  console line k env w
  = Returned tt {| self := self w; trace := trace w ++ added |}
  /\ length added = S (line_feeds line)
  /\ String.concat (String LF "") (map console_line added) = line
  /\ Forall (fun a => single_line (console_line a) = true) added
  /\ Forall (fun a => exists l, a = Dispatched (Console (set_line l k))) added.
Proof.
  intros added. subst added. split; [apply console_spec|].
  split; [unfold dispatched_lines; rewrite length_map; apply split_lines_length|].
  split; [rewrite console_lines_dispatched; apply split_lines_join|].
  split.
  - pose proof (split_lines_segments line) as H.
    induction H as [|l ls Hl _ IH]; constructor; [exact Hl|exact IH].
  - induction (split_lines line) as [|l ls IH]; constructor; [eauto|exact IH].
Qed.

(** X2: [fatal_error] passes on its first positional argument as the
    reason and nothing else: a [reason=] keyword is overwritten, so a call
    with the keyword alone dispatches [FatalError] with reason [None], and
    the handler of that event then prints "fatal error: None" before it
    interrupts the process. *)
Theorem fatal_error_reason_is_positional a k_reason env w :
  let reason := head a in
  let w1 := final (fatal_error a k_reason env w) in
  fatal_error a k_reason env w
  = Returned tt {| self := self w;
                   trace := trace w ++ [Dispatched (FatalError reason)] |}
  /\ registered (FatalError reason) env w1
     = Returned tt
         {| self := self w;
            trace := trace w1 ++
              dispatched_lines (kw None (Some "error") None None)
                (split_lines ("fatal error: " +:+
                              match a with
                              | a0 :: _ => a0
                              | [] => "None"
                              end))
              ++ [Interrupted] |}.
Proof.
  unfold registered, registration. cbv beta iota zeta.
  rewrite handle_fatal_spec. destruct a as [|a0 rest]; split; reflexivity.
Qed.

(** X3: [handle_command] forwards every text to the server, whatever it
    begins with: after the echo (prompt ">", the user, no source) comes
    exactly one [ServerInput] carrying the text, without [parse_colors];
    no [Hook] is dispatched and no "unknown command." printed. *)
Theorem handle_command_always_forwards user text env w :
  let prompt := dispatched_lines (kw None None (Some user) (Some ">"))
                                 (split_lines text) in
  handle_command user text env w
  = Returned tt {| self := self w;
                   trace := trace w ++ prompt ++
                            [Dispatched (ServerInput text None)] |}
  /\ existsb (fun a => is_hook a || is_server_input a
                       || is_notice "unknown command." a) prompt = false.
Proof.
  intros prompt. subst prompt. split.
  - unfold handle_command, send, mbind, M_bind. rewrite console_spec.
    unfold dispatch, mret, M_ret. cbn [self trace].
    rewrite <- app_assoc. reflexivity.
  - apply existsb_dispatched_lines. reflexivity.
Qed.

(** X4: the handler of [Console] only writes to the log: one record per
    line of the rendered event (line feeds plus one), no event dispatched,
    the manager unchanged. *)
Theorem handle_console_only_logs k env w :
  let records := map Logged (split_lines (console_value env k)) in
  handle_console k env w
  = Returned tt {| self := self w; trace := trace w ++ records |}
  /\ length records = S (line_feeds (console_value env k))
  /\ existsb is_dispatch records = false.
Proof.
  intros records. subst records. split; [|split].
  - unfold handle_console. apply for_each_emit.
  - rewrite length_map. apply split_lines_length.
  - apply existsb_map_Logged. reflexivity.
Qed.

(** X5: [start_logging] raises exactly when the rotate mode is none of
    "daily", "off" and "size"; "daily" gives a daily log file and ignores
    size and limit; "off" and "size" give a plain log file, named after
    the server, whose rotation length is the configured size in mode
    "size" only, and which has no limit on rotated files exactly when the
    configured limit is the empty string. *)
Theorem start_logging_modes server_name shared_path log_rotate log_size log_limit :
  match start_logging server_name shared_path log_rotate log_size log_limit with
  | inr msg =>
      log_rotate <> "daily" /\ log_rotate <> "off" /\ log_rotate <> "size"
  | inl (DailyLogFile name directory) =>
      log_rotate = "daily"
      /\ name = server_name +:+ ".log" /\ directory = shared_path
  | inl (LogFile name directory rotateLength maxRotatedFiles) =>
      (log_rotate = "off" \/ log_rotate = "size")
      /\ name = server_name +:+ ".log" /\ directory = shared_path
      /\ (rotateLength = if String.eqb log_rotate "size" then Some log_size else None)
      /\ (maxRotatedFiles = None <-> log_limit = "")
  end.
Proof.
  unfold start_logging.
  destruct (String.eqb_spec log_rotate "daily") as [->|Hd]; [auto|].
  destruct (String.eqb_spec log_rotate "off") as [->|Ho]; simpl.
  - repeat split; auto.
    + destruct (String.eqb_spec log_limit ""); simpl; [auto|discriminate].
    + intros ->. reflexivity.
  - destruct (String.eqb_spec log_rotate "size") as [->|Hs]; simpl.
    + repeat split; auto.
      * destruct (String.eqb_spec log_limit ""); simpl; [auto|discriminate].
      * intros ->. reflexivity.
    + auto.
Qed.

Lemma players_after_other e ps :
  is_players_event e = false -> players_after e ps = ps.
Proof. destruct e; intros H; try discriminate; reflexivity. Qed.

Lemma stat_broadcasts_app t1 t2 :
  stat_broadcasts (t1 ++ t2) = stat_broadcasts t1 ++ stat_broadcasts t2.
Proof. unfold stat_broadcasts. apply flat_map_app. Qed.

Lemma stat_broadcasts_dispatched_lines k ls :
  stat_broadcasts (dispatched_lines k ls) = [].
Proof. induction ls as [|l ls IH]; simpl; [reflexivity|exact IH]. Qed.

Lemma stat_broadcasts_Logged ls : stat_broadcasts (map Logged ls) = [].
Proof. induction ls as [|l ls IH]; simpl; [reflexivity|exact IH]. Qed.

(** What one delivery does to the manager and to the broadcasts. *)
Lemma registered_frame e env w :
  exists added,
    registered e env w
    = Returned tt
        {| self :=
             {| players := players_after e (players (self w));
                started := started (self w) || is_server_started e;
                properties :=
                  if is_server_started e && truthy (properties_load env (trace w))
                  then properties_load env (trace w)
                  else properties (self w) |};
           trace := trace w ++ added |}
    /\ stat_broadcasts added
       = if is_players_event e
         then [elements (players_after e (players (self w)))]
         else [].
Proof.
  destruct w as [[ps st pr] t].
  destruct e as [line time level data|k|line pc|reason| | | |user|user
                |line user|username|username|username message
                |cause format groups|names|line];
    unfold registered, registration; cbv beta iota;
    cbn [self trace players started properties players_after
         is_server_started is_players_event andb];
    rewrite ?orb_false_r.
  - (* ServerOutput *) eexists. split; reflexivity.
  - (* Console *)
    unfold handle_console. rewrite for_each_emit. eexists.
    split; [reflexivity|]. apply stat_broadcasts_Logged.
  - (* ServerInput *) exists []. cbn. rewrite app_nil_r. split; reflexivity.
  - (* FatalError *)
    rewrite handle_fatal_spec. eexists. split; [reflexivity|].
    rewrite stat_broadcasts_app, stat_broadcasts_dispatched_lines. reflexivity.
  - (* ServerStarted *)
    rewrite handle_server_started_spec. cbn [self trace started].
    rewrite orb_true_r. eexists. split.
    + destruct (truthy _); reflexivity.
    + destruct st; reflexivity.
  - (* ServerStopped *)
    eexists. split; [reflexivity|]. cbn. now rewrite elements_empty.
  - (* ServerStart *) exists []. cbn. rewrite app_nil_r. split; reflexivity.
  - (* UserAttach *)
    unfold handle_user_attach. rewrite console_spec. eexists.
    split; [reflexivity|]. apply stat_broadcasts_dispatched_lines.
  - (* UserDetach *)
    unfold handle_user_detach. rewrite console_spec. eexists.
    split; [reflexivity|]. apply stat_broadcasts_dispatched_lines.
  - (* UserInput *)
    rewrite handle_user_input_spec. eexists. split; [reflexivity|].
    rewrite stat_broadcasts_app. unfold echo.
    rewrite stat_broadcasts_dispatched_lines. unfold branch.
    destruct (startswith line "~"), (startswith line "#");
      try match goal with
          | |- context [dispatch_result ?e ?t ?h] =>
              destruct (dispatch_result e t h)
          end; reflexivity.
  - (* PlayerJoin *) eexists. split; reflexivity.
  - (* PlayerQuit *) eexists. split; reflexivity.
  - (* PlayerChat *) exists []. cbn. rewrite app_nil_r. split; reflexivity.
  - (* PlayerDeath *) exists []. cbn. rewrite app_nil_r. split; reflexivity.
  - (* StatPlayers *) exists []. cbn. rewrite app_nil_r. split; reflexivity.
  - (* Hook *) exists []. cbn. rewrite app_nil_r. split; reflexivity.
Qed.

Lemma deliver_all_cons e es env w :
  deliver_all (e :: es) env w
  = match registered e env w with
    | Returned _ w' => deliver_all es env w'
    | Raised err w' => Raised err w'
    end.
Proof. reflexivity. Qed.



Lemma deliver_all_players es env w :
  let w' := final (deliver_all es env w) in
  returns (deliver_all es env w) = true
  /\ players (self w') = players_of es (players (self w)).
Proof.
  revert w. induction es as [|e es IH]; intros w; [split; reflexivity|].
  destruct (registered_frame e env w) as (added & Hrun & _).
  cbv zeta. rewrite deliver_all_cons, Hrun.
  match goal with
  | |- context [deliver_all es env ?w1] => destruct (IH w1) as [Hret Hps]
  end.
  split; [exact Hret|]. rewrite Hps. reflexivity.
Qed.


Lemma players_of_app es1 es2 ps :
  players_of (es1 ++ es2) ps = players_of es2 (players_of es1 ps).
Proof. unfold players_of. apply fold_left_app. Qed.






Lemma registered_mirrors e env w :
  mirrored w -> mirrored (final (registered e env w)).
Proof.
  unfold mirrored. intros Hw.
  destruct (registered_frame e env w) as (added & Hrun & Hb).
  rewrite Hrun. cbn [final self trace players].
  rewrite stat_broadcasts_app, Hb.
  destruct (is_players_event e) eqn:He.
  - rewrite last_snoc. apply list_to_set_elements_L.
  - rewrite app_nil_r, (players_after_other _ _ He). exact Hw.
Qed.

(** X10: delivery keeps the broadcasts in step with the players set: if
    the last [StatPlayers] broadcast names exactly the current players
    (or nothing was broadcast and there are none, as for a manager fresh
    from [__init__]), the same holds after any sequence of events. *)
Theorem broadcast_mirrors_players es env w :
  mirrored w -> mirrored (final (deliver_all es env w)).
Proof.
  revert w. induction es as [|e es IH]; intros w Hw; [exact Hw|].
  rewrite deliver_all_cons.
  pose proof (registered_mirrors e env w Hw) as H1.
  destruct (registered_frame e env w) as (added & Hrun & _).
  rewrite Hrun in *. apply IH. exact H1.
Qed.

Lemma broadcast_mirrors_players_witness :
  mirrored fresh
  /\ mirrored (final (deliver_all
                 [PlayerJoin "Alice"; UserInput "say hi" "op"; PlayerQuit "Bob"]
                 quiet fresh)).
Proof.
  assert (H : mirrored fresh) by reflexivity.
  split; [exact H|].
  exact (broadcast_mirrors_players _ quiet fresh H).
Defined.


(** X12: a [PlayerJoin] of somebody already in the players set leaves
    the manager as it was and still broadcasts the members of the set. *)
Theorem join_of_present_player username env w :
  username ∈ players (self w) ->
  handle_player_join username env w
  = Returned tt
      {| self := self w;
         trace := trace w ++
           [Dispatched (StatPlayers (elements (players (self w))))] |}.
Proof.
  intros Hin. rewrite handle_player_join_spec.
  assert (E : {[ username ]} ∪ players (self w) = players (self w)).
  { apply set_eq. intros p. rewrite elem_of_union, elem_of_singleton.
    split; [intros [->|Hp]; assumption|]. intros Hp. right. exact Hp. }
  rewrite E, set_players_same. reflexivity.
Qed.

Lemma join_of_present_player_witness :
  let w := final (handle_player_join "Alice" quiet fresh) in
  ("Alice" ∈ players (self w))
  /\ handle_player_join "Alice" quiet w
     = Returned tt
         {| self := self w;
            trace := trace w ++
              [Dispatched (StatPlayers (elements (players (self w))))] |}.
Proof.
  intros w.
  assert (H : "Alice" ∈ players (self w)) by (vm_compute; reflexivity).
  split; [exact H|].
  exact (join_of_present_player "Alice" quiet w H).
Defined.

(** X13: the last join or quit of a player decides: after a sequence
    that ends with the player's [PlayerJoin] the player is listed, after
    one that ends with the [PlayerQuit] the player is not, whatever came
    before; and such an event changes nobody else's membership. *)
Theorem last_event_decides_membership es username env w :
  (username ∈ players (self (final (deliver_all (es ++ [PlayerJoin username]) env w))))
  /\ (username ∉ players (self (final (deliver_all (es ++ [PlayerQuit username]) env w))))
  /\ (forall e p,
         e = PlayerJoin username \/ e = PlayerQuit username ->
         p <> username ->
         (p ∈ players (self (final (deliver_all (es ++ [e]) env w)))
          <-> p ∈ players (self (final (deliver_all es env w))))).
Proof.
  split; [|split].
  - destruct (deliver_all_players (es ++ [PlayerJoin username]) env w)
      as [_ ->].
    rewrite players_of_app. cbn. apply elem_of_union. left.
    now apply elem_of_singleton.
  - destruct (deliver_all_players (es ++ [PlayerQuit username]) env w)
      as [_ ->].
    rewrite players_of_app. cbn. rewrite elem_of_difference, elem_of_singleton.
    intros [_ H]. now apply H.
  - intros e p He Hp.
    destruct (deliver_all_players (es ++ [e]) env w) as [_ ->].
    destruct (deliver_all_players es env w) as [_ ->].
    rewrite players_of_app.
    destruct He as [-> | ->]; cbn.
    + rewrite elem_of_union, elem_of_singleton. tauto.
    + rewrite elem_of_difference, elem_of_singleton. tauto.
Qed.

Lemma last_event_decides_membership_witness :
  (PlayerQuit "Alice" = PlayerJoin "Alice" \/ PlayerQuit "Alice" = PlayerQuit "Alice")
  /\ "Bob" <> "Alice"
  /\ ("Bob" ∈ players (self (final (deliver_all
                ([PlayerJoin "Alice"; PlayerJoin "Bob"] ++ [PlayerQuit "Alice"])
                quiet fresh)))
      <-> "Bob" ∈ players (self (final (deliver_all
                [PlayerJoin "Alice"; PlayerJoin "Bob"] quiet fresh)))).
Proof.
  assert (H1 : PlayerQuit "Alice" = PlayerJoin "Alice"
               \/ PlayerQuit "Alice" = PlayerQuit "Alice") by (right; reflexivity).
  assert (H2 : "Bob" <> "Alice") by discriminate.
  split; [exact H1|]. split; [exact H2|].
  exact (proj2 (proj2 (last_event_decides_membership
                  [PlayerJoin "Alice"; PlayerJoin "Bob"] "Alice" quiet fresh))
               (PlayerQuit "Alice") "Bob" H1 H2).
Defined.

(** X14: once server.properties is mirrored, no later event erases the
    mirror: a reload that finds nothing keeps the previous snapshot. *)
Theorem snapshot_survives_failed_reloads es env w :
  truthy (properties (self w)) = true ->
  truthy (properties (self (final (deliver_all es env w)))) = true.
Proof.
  revert w. induction es as [|e es IH]; intros w Hw; [exact Hw|].
  destruct (registered_frame e env w) as (added & Hrun & _).
  rewrite deliver_all_cons, Hrun. apply IH. cbn [self properties].
  destruct (is_server_started e); [|exact Hw]. cbn [andb].
  destruct (truthy (properties_load env (trace w))) eqn:E; [exact E|exact Hw].
Qed.

Lemma snapshot_survives_failed_reloads_witness :
  let w := {| self := set_properties (Some [("motd", "hello")]) init;
              trace := [] |} in
  truthy (properties (self w)) = true
  /\ truthy (properties (self (final (deliver_all
                [ServerStarted; ServerStopped; ServerStarted] quiet w)))) = true.
Proof.
  intros w. split; [reflexivity|].
  exact (snapshot_survives_failed_reloads
           [ServerStarted; ServerStopped; ServerStarted] quiet w eq_refl).
Defined.

Lemma handler_first_match_spec re_match deaths line time level data cause env w :
  handler re_match deaths line time level data cause env w
  = match first_match re_match data deaths with
    | None => Returned tt w
    | Some (format, groups) =>
        if clashes groups
        then Raised (TypeError "got multiple values for keyword argument") w
        else Returned tt
               {| self := self w;
                  trace := trace w ++
                    [Dispatched (PlayerDeath cause format groups)] |}
    end.
Proof.
  induction deaths as [|[name [pattern format]] rest IH]; simpl; [reflexivity|].
  destruct (re_match pattern data) as [groups|]; [|exact IH].
  unfold mbind, M_bind, new_PlayerDeath.
  destruct (clashes groups); reflexivity.
Qed.

(** X15: the death handler is decided by the first table entry whose
    pattern matches: without one it does nothing; with one, it raises
    exactly when that entry's groups clash with [cause] or [format], and
    then dispatches nothing, later entries that match without a clash
    notwithstanding; otherwise it dispatches that entry's [PlayerDeath]. *)
Theorem handler_follows_first_match re_match deaths line time level data cause env w :
  let o := handler re_match deaths line time level data cause env w in
  match first_match re_match data deaths with
  | None => o = Returned tt w
  | Some (format, groups) =>
      (returns o = false <-> clashes groups = true)
      /\ o = if clashes groups
             then Raised (TypeError "got multiple values for keyword argument") w
             else Returned tt
                    {| self := self w;
                       trace := trace w ++
                         [Dispatched (PlayerDeath cause format groups)] |}
  end.
Proof.
  cbv zeta. rewrite handler_first_match_spec.
  destruct (first_match re_match data deaths) as [[format groups]|];
    [|reflexivity].
  destruct (clashes groups); cbn; split; try reflexivity;
    split; congruence.
Qed.

(** X16: for every table, matcher and line, the death handler leaves the
    manager unchanged and dispatches at most one event, a [PlayerDeath];
    when it raises it has dispatched nothing. *)
Theorem handler_dispatches_at_most_one_death
        re_match deaths line time level data cause env w :
  let o := handler re_match deaths line time level data cause env w in
  self (final o) = self w
  /\ exists added,
       trace (final o) = trace w ++ added
       /\ length added <= 1
       /\ forallb is_death added = true
       /\ (returns o = true \/ added = []).
Proof.
  cbv zeta. rewrite handler_first_match_spec.
  destruct (first_match re_match data deaths) as [[format groups]|];
    [destruct (clashes groups)|]; cbn [final self trace returns];
    (split; [reflexivity|]).
  - exists []. rewrite app_nil_r. cbn. auto.
  - eexists. split; [reflexivity|]. cbn. split; [lia|].
    split; [reflexivity|left; reflexivity].
  - exists []. rewrite app_nil_r. cbn. auto.
Qed.
